(** * Verification model of the TUIO broadcaster ([src/main.py])

    A shallow embedding of the object registry ([latest_objects]), the
    selection logic ([process_logic_and_broadcast]), the ingestion callback
    ([MyTuioListener._handle_obj]) and the client fan-out set ([clients],
    [broadcast], [tcp_acceptor], [client_reader_thread]).

    Python floats are modelled by real numbers; Python's dynamic attribute
    access is modelled by an association list from attribute names to either
    a value or the exception its getter raises. *)

From Stdlib Require Import ZArith Reals Lra Lia List String Bool.
Import ListNotations.
Open Scope string_scope.
Open Scope list_scope.

(* ------------------------------------------------------------------ *)
(** ** Python values and exceptions *)

Inductive pyval : Type :=
  | VNone
  | VInt (z : Z)
  | VNum (r : R)            (* a Python float *)
  | VStr (s : string).

(** The exceptions the modelled code can meet.  [KeyboardInterrupt] and
    [SystemExit] derive from [BaseException] but not from [Exception]. *)
Inductive exn : Type :=
  | AttributeError
  | TypeError
  | ValueError
  | IndexError
  | RuntimeError (msg : string)
  | KeyboardInterrupt
  | SystemExit
  (* an instance of a subclass of [Exception] whose [__str__] raises [inner] *)
  | BadStrException (inner : exn).

(** [isinstance(e, Exception)] *)
Definition is_Exception (e : exn) : bool :=
  match e with
  | KeyboardInterrupt | SystemExit => false
  | _ => true
  end.

(** Python numeric equality [v == n] against an integer literal. *)
Definition py_eq_int (v : pyval) (n : Z) : bool :=
  match v with
  | VInt z => Z.eqb z n
  | VNum r => if Req_dec_T r (IZR n) then true else false
  | _ => false
  end.

(** Equality of dictionary keys ([session_id] values). *)
Definition key_eqb (a b : pyval) : bool :=
  match a, b with
  | VNone, VNone => true
  | VInt x, VInt y => Z.eqb x y
  | VNum x, VNum y => if Req_dec_T x y then true else false
  | VInt x, VNum y | VNum y, VInt x => if Req_dec_T (IZR x) y then true else false
  | VStr x, VStr y => String.eqb x y
  | _, _ => false
  end.

(** Arithmetic operands: ints and floats are numbers, anything else raises
    [TypeError]. *)
Definition to_num (v : pyval) : option R :=
  match v with
  | VInt z => Some (IZR z)
  | VNum r => Some r
  | _ => None
  end.

(* ------------------------------------------------------------------ *)
(** ** An exception-and-state monad *)

Inductive result (A : Type) : Type :=
  | Ok (a : A)
  | Exc (e : exn).
Arguments Ok {A} a.
Arguments Exc {A} e.

Definition M (S A : Type) : Type := S -> result A * S.

Definition ret {S A} (a : A) : M S A := fun s => (Ok a, s).
Definition raise {S A} (e : exn) : M S A := fun s => (Exc e, s).
Definition bind {S A B} (m : M S A) (k : A -> M S B) : M S B :=
  fun s => match m s with
           | (Ok a, s') => k a s'
           | (Exc e, s') => (Exc e, s')
           end.
Definition get {S} : M S S := fun s => (Ok s, s).
Definition put {S} (s : S) : M S unit := fun _ => (Ok tt, s).

Notation "x <- m ;; k" := (bind m (fun x => k))
  (at level 61, m at next level, right associativity).
Notation "m ;; k" := (bind m (fun _ => k))
  (at level 61, right associativity).

Definition lift_opt {S A} (e : exn) (o : option A) : M S A :=
  match o with Some a => ret a | None => raise e end.

(** [for x in l: body x] *)
Fixpoint for_each {S A} (l : list A) (body : A -> M S unit) : M S unit :=
  match l with
  | [] => ret tt
  | x :: l' => body x ;; for_each l' body
  end.

(** [try: body except Exception as e: handler e] *)
Definition try_catch_Exception {S A} (body : M S A) (handler : exn -> M S A) : M S A :=
  fun s => match body s with
           | (Ok a, s') => (Ok a, s')
           | (Exc e, s') => if is_Exception e then handler e s' else (Exc e, s')
           end.

(* ------------------------------------------------------------------ *)
(** ** External objects and Python attribute access *)

(** What reading one attribute of the decoder's object does: yield a value,
    or raise from its getter. *)
Inductive attr : Type :=
  | AVal (v : pyval)
  | ARaise (e : exn).

(** An external object: its attributes by name (first binding wins). *)
Definition pyobj : Type := list (string * attr).

Fixpoint attr_lookup (o : pyobj) (name : string) : option attr :=
  match o with
  | [] => None
  | (n, a) :: o' => if String.eqb n name then Some a else attr_lookup o' name
  end.

Definition is_AttributeError (e : exn) : bool :=
  match e with AttributeError => true | _ => false end.

(** [hasattr(o, name)]: false exactly when the lookup raises
    [AttributeError]; any other exception propagates. *)
Definition hasattr {S} (o : pyobj) (name : string) : M S bool :=
  match attr_lookup o name with
  | None => ret false
  | Some (AVal _) => ret true
  | Some (ARaise e) => if is_AttributeError e then ret false else raise e
  end.

(** [getattr(o, name)] *)
Definition getattr {S} (o : pyobj) (name : string) : M S pyval :=
  match attr_lookup o name with
  | None => raise AttributeError
  | Some (AVal v) => ret v
  | Some (ARaise e) => raise e
  end.

(** [getattr(o, name, default)] *)
Definition getattr_d {S} (o : pyobj) (name : string) (default : pyval) : M S pyval :=
  match attr_lookup o name with
  | None => ret default
  | Some (AVal v) => ret v
  | Some (ARaise e) => if is_AttributeError e then ret default else raise e
  end.

(** [f"{v:.3f}"]: ints and floats format, [None] raises [TypeError],
    strings raise [ValueError]. *)
Definition format_3f {S} (v : pyval) : M S unit :=
  match v with
  | VInt _ | VNum _ => ret tt
  | VNone => raise TypeError
  | VStr _ => raise ValueError
  end.

(* ------------------------------------------------------------------ *)
(** ** Configuration *)

Definition ROTATE_SYMBOL : Z := 0.
Definition SELECT_SYMBOL : Z := 1.
Definition BACK_SYMBOL : Z := 12.

Definition MEDICATION_SYMBOLS : list (Z * string) :=
  [(2, "Paracetamol"); (3, "Amoxicillin"); (4, "Aspirin"); (5, "Metformin");
   (6, "Lisinopril"); (7, "Atorvastatin"); (8, "Omeprazole"); (9, "Salbutamol");
   (10, "Ibuprofen"); (11, "Vitamin D")]%Z.

Definition NUM_WHEEL_SECTORS : Z := Z.of_nat (List.length MEDICATION_SYMBOLS).

Definition PROXIMITY_THRESHOLD : R := 0.08.

(** [sid in MEDICATION_SYMBOLS] / [MEDICATION_SYMBOLS[sid]] *)
Definition med_lookup (sid : pyval) : option string :=
  match find (fun kv => py_eq_int sid (fst kv)) MEDICATION_SYMBOLS with
  | Some (_, name) => Some name
  | None => None
  end.

Definition med_in (sid : pyval) : bool :=
  match med_lookup sid with Some _ => true | None => false end.

(** [lst[i]] with Python's negative indexing; [IndexError] out of range. *)
Definition py_index {A} (l : list A) (i : Z) : option A :=
  let i' := if (i <? 0)%Z then (Z.of_nat (List.length l) + i)%Z else i in
  if (i' <? 0)%Z then None else nth_error l (Z.to_nat i').

(* ------------------------------------------------------------------ *)
(** ** Records, broadcast messages and the registry *)

Inductive event_kind : Type := Add | Update | Remove.

Definition is_add (e : event_kind) : bool :=
  match e with Add => true | _ => false end.

(** [event_type in ("add", "update")] *)
Definition is_add_or_update (e : event_kind) : bool :=
  match e with Add | Update => true | Remove => false end.

(** The dict built by [_handle_obj]. *)
Record record : Type := mkRecord {
  r_event : event_kind;
  r_symbol_id : pyval;
  r_session_id : pyval;
  r_x : pyval;
  r_y : pyval;
  r_angle : pyval
}.

(** The dicts passed to [broadcast], one constructor per ["type"]. *)
Inductive msg : Type :=
  | TuioObj (payload : record)                                  (* "tuio_obj" *)
  | MedicationSelected (medication : string) (symbol_id : pyval) (* "medication_selected" *)
  | WheelOpen (x y : pyval)                                     (* "wheel_open" *)
  | WheelHover (sector : Z) (angle : R) (x y : pyval) (medication : string)
                                                                (* "wheel_hover" *)
  | WheelSelectConfirm (sector : Z) (medication : string)       (* "wheel_select_confirm" *)
  | BackPressed.                                                (* "back_pressed" *)

(** A Python dict as an insertion-ordered association list. *)
Definition dict (V : Type) : Type := list (pyval * V).

Fixpoint dict_get {V} (d : dict V) (k : pyval) : option V :=
  match d with
  | [] => None
  | (k', v) :: d' => if key_eqb k' k then Some v else dict_get d' k
  end.

(** [d[k] = v]: an existing key keeps its position, a new one goes last. *)
Fixpoint dict_set {V} (d : dict V) (k : pyval) (v : V) : dict V :=
  match d with
  | [] => [(k, v)]
  | (k', v') :: d' => if key_eqb k' k then (k', v) :: d' else (k', v') :: dict_set d' k v
  end.

(** [d.pop(k, None)] (the popped value is discarded by the caller). *)
Fixpoint dict_pop {V} (d : dict V) (k : pyval) : dict V :=
  match d with
  | [] => []
  | (k', v') :: d' => if key_eqb k' k then d' else (k', v') :: dict_pop d' k
  end.

(* ------------------------------------------------------------------ *)
(** ** The client fan-out set ([clients], [broadcast]) *)

(** A connected client socket, by identity. *)
Definition chan : Type := nat.

(** [clients] together with the environment of the sockets: [failing] lists
    the sockets whose [sendall] raises (a broken transport); [delivered]
    records every successful [sendall]; [closed] every [close()]. *)
Record hub : Type := mkHub {
  clients : list chan;
  failing : list chan;
  delivered : list (chan * msg);
  closed : list chan
}.

(** [list.remove(x)]: drop the first occurrence, [ValueError] if none. *)
Fixpoint list_remove {A} (eqb : A -> A -> bool) (x : A) (l : list A) : option (list A) :=
  match l with
  | [] => None
  | y :: l' => if eqb y x then Some l'
               else match list_remove eqb x l' with
                    | Some r => Some (y :: r)
                    | None => None
                    end
  end.

(** [client_socket.sendall(data)] *)
Definition sendall (c : chan) (m : msg) : M hub unit :=
  fun h => if existsb (Nat.eqb c) (failing h)
           then (Exc (RuntimeError "BrokenPipeError"), h)
           else (Ok tt, mkHub (clients h) (failing h) (delivered h ++ [(c, m)]) (closed h)).

(** [for client_socket in clients: try: sendall except Exception: dead.append] *)
Fixpoint send_loop (m : msg) (cs : list chan) (dead : list chan) : M hub (list chan) :=
  match cs with
  | [] => ret dead
  | c :: cs' =>
      dead' <- try_catch_Exception (sendall c m ;; ret dead) (fun _ => ret (dead ++ [c])) ;;
      send_loop m cs' dead'
  end.

(** [clients.remove(dead_client)] *)
Definition clients_remove (c : chan) : M hub unit :=
  h <- get ;;
  l <- lift_opt ValueError (list_remove Nat.eqb c (clients h)) ;;
  put (mkHub l (failing h) (delivered h) (closed h)).

(** [broadcast(obj)] on the client set (serialisation to a JSON line is
    left abstract: the delivered payload is the message itself). *)
Definition hub_broadcast (m : msg) : M hub unit :=
  h <- get ;;
  dead <- send_loop m (clients h) [] ;;
  for_each dead clients_remove.

(** [tcp_acceptor]: [with clients_lock: clients.append(conn)] *)
Definition register (c : chan) (h : hub) : hub :=
  mkHub (clients h ++ [c]) (failing h) (delivered h) (closed h).

(** [client_reader_thread]'s [finally]: [if conn in clients:
    clients.remove(conn)], then [conn.close()]. *)
Definition unregister (c : chan) (h : hub) : hub :=
  let l := if existsb (Nat.eqb c) (clients h)
           then match list_remove Nat.eqb c (clients h) with
                | Some l => l
                | None => clients h
                end
           else clients h in
  mkHub l (failing h) (delivered h) (closed h ++ [c]).

(* ------------------------------------------------------------------ *)
(** ** Global state of the ingestion path *)

(** [latest_objects], [clients], and [trace]: the sequence of messages
    handed to [broadcast], in call order. *)
Record St : Type := mkSt {
  latest_objects : dict record;
  hub_st : hub;
  trace : list msg
}.

(** [broadcast(obj)] as called from the selection logic. *)
Definition broadcast (m : msg) : M St unit :=
  fun s => let (r, h') := hub_broadcast m (hub_st s) in
           (r, mkSt (latest_objects s) h' (trace s ++ [m])).

Definition set_latest_objects (d : dict record) : M St unit :=
  fun s => (Ok tt, mkSt d (hub_st s) (trace s)).

(* ------------------------------------------------------------------ *)
(** ** The wheel sector (lines 180-182) *)

Local Open Scope R_scope.

(** Python's [a % b] on floats: [a - b * floor(a / b)]. *)
Definition py_fmod (a b : R) : R := a - b * IZR (Int_part (a / b)).

(** Python's [int(r)] on a float: truncation toward zero. *)
Definition py_int (r : R) : Z :=
  if Rle_dec 0 r then Int_part r else (- Int_part (- r))%Z.

(** [int(frac * n) % n] *)
Definition sector_of_frac (n : Z) (frac : R) : Z :=
  (py_int (frac * IZR n) mod n)%Z.

(** [theta = angle % (2*pi)]; [frac = theta / (2*pi)]; sector. *)
Definition wheel_theta (angle : R) : R := py_fmod angle (2 * PI).

Definition wheel_sector (n : Z) (angle : R) : Z :=
  sector_of_frac n (wheel_theta angle / (2 * PI)).

(** [math.hypot(dx, dy)] *)
Definition hypot (dx dy : R) : R := sqrt (dx * dx + dy * dy).

Local Close Scope R_scope.

(* ------------------------------------------------------------------ *)
(** ** [process_logic_and_broadcast] (lines 155-217) *)

Definition medication_names : list string := map snd MEDICATION_SYMBOLS.

(** The body of the proximity scan for one registry entry [srec]
    (lines 201-212). *)
Definition confirm_check (rcd : record) (sector : Z) (srec : pyval * record) : M St unit :=
  let srec := snd srec in
  if py_eq_int (r_symbol_id srec) SELECT_SYMBOL then
    sx <- lift_opt TypeError (to_num (r_x srec)) ;;
    rx <- lift_opt TypeError (to_num (r_x rcd)) ;;
    sy <- lift_opt TypeError (to_num (r_y srec)) ;;
    ry <- lift_opt TypeError (to_num (r_y rcd)) ;;
    let dist := hypot (sx - rx)%R (sy - ry)%R in
    if Rlt_dec dist PROXIMITY_THRESHOLD then
      selected_med <- lift_opt IndexError (py_index medication_names sector) ;;
      broadcast (WheelSelectConfirm sector selected_med)
    else ret tt
  else ret tt.

Definition process_logic_and_broadcast (rcd : record) : M St unit :=
  let sid := r_symbol_id rcd in
  let evt := r_event rcd in
  broadcast (TuioObj rcd) ;;
  (if med_in sid && is_add evt then
     med_name <- lift_opt (RuntimeError "KeyError") (med_lookup sid) ;;
     broadcast (MedicationSelected med_name sid)
   else ret tt) ;;
  (if py_eq_int sid ROTATE_SYMBOL && is_add evt then
     broadcast (WheelOpen (r_x rcd) (r_y rcd))
   else ret tt) ;;
  (if py_eq_int sid ROTATE_SYMBOL && is_add_or_update evt then
     a <- lift_opt TypeError (to_num (r_angle rcd)) ;;
     let theta := wheel_theta a in
     let frac := (theta / (2 * PI))%R in
     let sector := sector_of_frac NUM_WHEEL_SECTORS frac in
     medication_name <- lift_opt IndexError (py_index medication_names sector) ;;
     broadcast (WheelHover sector theta (r_x rcd) (r_y rcd) medication_name) ;;
     s <- get ;;
     for_each (latest_objects s) (confirm_check rcd sector)
   else ret tt) ;;
  (if py_eq_int sid BACK_SYMBOL && is_add evt then broadcast BackPressed
   else ret tt).

(* ------------------------------------------------------------------ *)
(** ** [MyTuioListener._handle_obj] (lines 105-152) *)

Definition possible_id_attrs : list string :=
  ["fiducial_id"; "symbol_id"; "class_id"; "pattern_id"].

(** [for attr in possible_id_attrs: if hasattr(obj, attr):
    symbol_id = getattr(obj, attr); break] starting from [symbol_id = None]. *)
Fixpoint find_symbol_id {S} (obj : pyobj) (attrs : list string) : M S pyval :=
  match attrs with
  | [] => ret VNone
  | a :: rest =>
      h <- hasattr obj a ;;
      if h then getattr obj a else find_symbol_id obj rest
  end.

(** Lines 129-136. *)
Definition make_record (event_type : event_kind) (symbol_id session_id x y angle : pyval)
  : record := mkRecord event_type symbol_id session_id x y angle.

(** Lines 107-136: resolve the marker id through [possible_id_attrs],
    then read [session_id], the position and the angle with their
    defaults, and build the record; [None] when no id was found. *)
Definition read_record {S} (event_type : event_kind) (obj : pyobj) : M S (option record) :=
  symbol_id <- find_symbol_id obj possible_id_attrs ;;
  match symbol_id with
  | VNone => ret None
  | _ =>
    session_id <- getattr_d obj "session_id" VNone ;;
    (* arguments are evaluated innermost first *)
    x3 <- getattr_d obj "x_pos" (VNum 0.5) ;;
    x2 <- getattr_d obj "xpos" x3 ;;
    x <- getattr_d obj "x" x2 ;;
    y3 <- getattr_d obj "y_pos" (VNum 0.5) ;;
    y2 <- getattr_d obj "ypos" y3 ;;
    y <- getattr_d obj "y" y2 ;;
    angle <- getattr_d obj "angle" (VInt 0) ;;
    ret (Some (make_record event_type symbol_id session_id x y angle))
  end.

(** What [str(e)] raises, if anything. *)
Definition exn_str_raises (e : exn) : option exn :=
  match e with
  | BadStrException inner => Some inner
  | _ => None
  end.

(** [logger.error(f"Error handling TUIO object: {e}")]: building the
    message calls [str(e)] before [logger.error] runs. *)
Definition log_error {S} (e : exn) : M S unit :=
  match exn_str_raises e with
  | Some e' => raise e'
  | None => ret tt
  end.

Definition handle_obj (event_type : event_kind) (obj : pyobj) : M St unit :=
  try_catch_Exception
    (o <- read_record event_type obj ;;
     match o with
     | None => ret tt   (* logger.warning(...); return *)
     | Some rcd =>
       (* logger.info(f"... x={x:.3f}, y={y:.3f}, angle={angle:.3f}") *)
       format_3f (r_x rcd) ;; format_3f (r_y rcd) ;; format_3f (r_angle rcd) ;;
       (* with latest_objects_lock: ... *)
       s <- get ;;
       set_latest_objects
         (if is_add_or_update event_type
          then dict_set (latest_objects s) (r_session_id rcd) rcd
          else dict_pop (latest_objects s) (r_session_id rcd)) ;;
       process_logic_and_broadcast rcd
     end)
    log_error.

(* ------------------------------------------------------------------ *)
(** ** Auxiliary notions for the proofs *)

Definition is_failing (h : hub) (c : chan) : bool := existsb (Nat.eqb c) (failing h).

(** Removing, one after the other, the elements of [d] from [l]. *)
Fixpoint remove_all (d l : list chan) : option (list chan) :=
  match d with
  | [] => Some l
  | x :: d' => match list_remove Nat.eqb x l with
               | Some l' => remove_all d' l'
               | None => None
               end
  end.

(** The outcome of an attribute read does not depend on the state. *)
Definition gd (o : pyobj) (n : string) (d : pyval) : result pyval :=
  fst (getattr_d (S := unit) o n d tt).

Definition fsi (o : pyobj) (attrs : list string) : result pyval :=
  fst (find_symbol_id (S := unit) o attrs tt).

Definition rr (ev : event_kind) (o : pyobj) : result (option record) :=
  fst (read_record (S := unit) ev o tt).

Definition is_number (v : pyval) : bool :=
  match v with VInt _ | VNum _ => true | _ => false end.

(** The record survives the [:.3f] formatting of the log line. *)
Definition numeric_record (rcd : record) : bool :=
  is_number (r_x rcd) && is_number (r_y rcd) && is_number (r_angle rcd).

(** The registry write of lines 142-146. *)
Definition registry_update (ev : event_kind) (d : dict record) (rcd : record) : dict record :=
  if is_add_or_update ev then dict_set d (r_session_id rcd) rcd
  else dict_pop d (r_session_id rcd).

(** Computations that leave [latest_objects] as they found it. *)
Definition keeps_reg {A} (m : M St A) : Prop :=
  forall s, latest_objects (snd (m s)) = latest_objects s.

(* ------------------------------------------------------------------ *)
(** ** Concrete inputs *)

(** The state before any event: no object, no client. *)
Definition st_empty : St := mkSt [] (mkHub [] [] [] []) [].

(** The registry after the rotate marker of the simulation (session 1000)
    reached angle pi at (0.5, 0.5). *)
Definition rotate_at_pi : record :=
  make_record Update (VInt ROTATE_SYMBOL) (VInt 1000) (VNum 0.5) (VNum 0.5) (VNum PI).

Definition st_rotating : St := mkSt [(VInt 1000, rotate_at_pi)] (mkHub [] [] [] []) [].

(** A select marker placed at (0.52, 0.52), as in the simulation's Test 3. *)
Definition select_obj : pyobj :=
  [("fiducial_id", AVal (VInt SELECT_SYMBOL)); ("session_id", AVal (VInt 1001));
   ("x", AVal (VNum 0.52)); ("y", AVal (VNum 0.52))].



(** An object exposing only a session id and a position. *)
Definition anonymous_obj : pyobj :=
  [("session_id", AVal (VInt 7)); ("x", AVal (VNum 0.1)); ("y", AVal (VNum 0.2))].

(** A marker with only an id: no session id, no position, no angle. *)
Definition bare_obj (sym : Z) : pyobj := [("class_id", AVal (VInt sym))].

(** A rotate marker with session 42 at (0.25, 0.75), angle 1. *)
Definition rotate_obj : pyobj :=
  [("symbol_id", AVal (VInt ROTATE_SYMBOL)); ("session_id", AVal (VInt 42));
   ("xpos", AVal (VNum 0.25)); ("ypos", AVal (VNum 0.75)); ("angle", AVal (VNum 1))].

(** Three clients, the second one with a broken transport. *)
Definition hub_one_broken : hub := mkHub [1; 2; 3]%nat [2]%nat [] [].

(* ------------------------------------------------------------------ *)
(** ** Listener entry points, simulation and shutdown *)

(** [MyTuioListener.add_tuio_object] / [update_tuio_object] /
    [remove_tuio_object] *)
Definition add_tuio_object (obj : pyobj) : M St unit := handle_obj Add obj.
Definition update_tuio_object (obj : pyobj) : M St unit := handle_obj Update obj.
Definition remove_tuio_object (obj : pyobj) : M St unit := handle_obj Remove obj.

(** [SimulatedTuioObject(symbol_id, session_id, x, y, angle)]: every id
    alias and both position spellings are set. *)
Definition SimulatedTuioObject (symbol_id session_id x y angle : pyval) : pyobj :=
  [("fiducial_id", AVal symbol_id); ("symbol_id", AVal symbol_id);
   ("class_id", AVal symbol_id); ("pattern_id", AVal symbol_id);
   ("session_id", AVal session_id); ("x_pos", AVal x); ("y_pos", AVal y);
   ("x", AVal x); ("y", AVal y); ("angle", AVal angle)].

(** The angles of Test 2 of [_run_simulation]. *)
Definition simulation_angles : list pyval :=
  [VInt 0; VNum 0.78; VNum 1.57; VNum 2.35; VNum 3.14; VNum 3.92; VNum 4.71; VNum 5.49].

Definition rotate_sim (angle : pyval) : pyobj :=
  SimulatedTuioObject (VInt ROTATE_SYMBOL) (VInt 1000) (VNum 0.5) (VNum 0.5) angle.

(** [SimulationManager._run_simulation] without its sleeps and log lines:
    the sequence of listener calls it makes. *)
Definition run_simulation : M St unit :=
  let session_counter := 1000%Z in
  (* Test 1 *)
  add_tuio_object (rotate_sim (VInt 0)) ;;
  (* Test 2 *)
  for_each simulation_angles (fun angle => update_tuio_object (rotate_sim angle)) ;;
  (* Test 3 *)
  let obj2 := SimulatedTuioObject (VInt SELECT_SYMBOL) (VInt (session_counter + 1))
                                  (VNum 0.52) (VNum 0.52) (VInt 0) in
  add_tuio_object obj2 ;;
  (* Test 4: [obj] is the last object of the loop *)
  remove_tuio_object (rotate_sim (VNum 5.49)) ;;
  remove_tuio_object obj2 ;;
  (* Test 5 *)
  let obj3 := SimulatedTuioObject (VInt 4) (VInt (session_counter + 2))
                                  (VNum 0.3) (VNum 0.3) (VInt 0) in
  add_tuio_object obj3 ;;
  remove_tuio_object obj3.

(** [client_socket.close()] inside [try: ... except: pass]. *)
Definition close_quietly (c : chan) : M hub unit :=
  fun h => (Ok tt, mkHub (clients h) (failing h) (delivered h) (closed h ++ [c])).

(** [shutdown()] on the client set: close every client, clear the set,
    then [sys.exit(0)], which raises [SystemExit]. *)
Definition shutdown : M hub unit :=
  h <- get ;;
  for_each (clients h) close_quietly ;;
  h' <- get ;;
  put (mkHub [] (failing h') (delivered h') (closed h')) ;;
  raise SystemExit.

(** Every stored record passed the [:.3f] formatting. *)
Definition registry_numeric (reg : dict record) : Prop :=
  forallb (fun e => numeric_record (snd e)) reg = true.

(* ================================================================== *)
(** * Properties *)

(* ------------------------------------------------------------------ *)
(** ** The client set *)

Section Hub.

Lemma list_remove_app_last (x : chan) (l : list chan) :
  exists l', list_remove Nat.eqb x (l ++ [x]) = Some l' /\ List.length l' = List.length l.
Proof.
  induction l as [| y l IH]; simpl.
  - rewrite Nat.eqb_refl. eauto.
  - destruct (Nat.eqb y x) eqn:E.
    + apply Nat.eqb_eq in E; subst. eexists; split; [reflexivity |].
      rewrite length_app; simpl; lia.
    + destruct IH as [l' [-> Hl]]. eexists; split; [reflexivity | simpl; lia].
Qed.

Lemma send_loop_spec (m : msg) (cs dead : list chan) (h : hub) :
  send_loop m cs dead h =
  (Ok (dead ++ filter (is_failing h) cs),
   mkHub (clients h) (failing h)
         (delivered h ++ map (fun c => (c, m)) (filter (fun c => negb (is_failing h c)) cs))
         (closed h)).
Proof.
  revert dead h. induction cs as [| c cs IH]; intros dead h; simpl.
  - rewrite !app_nil_r. destruct h; reflexivity.
  - unfold try_catch_Exception, bind, sendall, ret at 1.
    unfold is_failing at 1 3. destruct (existsb (Nat.eqb c) (failing h)) eqn:F; simpl.
    + rewrite IH. unfold is_failing. simpl. rewrite F. simpl.
      rewrite <- app_assoc. reflexivity.
    + rewrite IH. unfold is_failing. simpl. rewrite F. simpl.
      rewrite <- !app_assoc. reflexivity.
Qed.

Lemma for_each_clients_remove (d : list chan) (h : hub) (r : list chan) :
  remove_all d (clients h) = Some r ->
  for_each d clients_remove h = (Ok tt, mkHub r (failing h) (delivered h) (closed h)).
Proof.
  revert h. induction d as [| x d IH]; intros h Hr; simpl in *.
  - inversion Hr; subst. destruct h; reflexivity.
  - unfold bind at 1, clients_remove, bind, get, lift_opt.
    destruct (list_remove Nat.eqb x (clients h)) as [l'|] eqn:E; [| discriminate].
    unfold ret, put. apply (IH (mkHub l' (failing h) (delivered h) (closed h))). exact Hr.
Qed.

Lemma list_remove_skip (a x : chan) (l : list chan) :
  Nat.eqb a x = false ->
  list_remove Nat.eqb x (a :: l) =
  match list_remove Nat.eqb x l with Some r => Some (a :: r) | None => None end.
Proof. intros E. simpl. rewrite E. reflexivity. Qed.

Lemma remove_all_skip (a : chan) (d l : list chan) :
  (forall x, In x d -> Nat.eqb a x = false) ->
  remove_all d (a :: l) = match remove_all d l with Some r => Some (a :: r) | None => None end.
Proof.
  revert l. induction d as [| x d IH]; intros l Hd; simpl; [reflexivity |].
  rewrite (Hd x (or_introl eq_refl)).
  destruct (list_remove Nat.eqb x l); [| reflexivity].
  apply IH. intros y Hy. apply Hd. right; exact Hy.
Qed.

Lemma remove_all_filter (f : chan -> bool) (l : list chan) :
  remove_all (filter f l) l = Some (filter (fun c => negb (f c)) l).
Proof.
  induction l as [| a l IH]; simpl; [reflexivity |].
  destruct (f a) eqn:Fa; simpl.
  - rewrite Nat.eqb_refl. exact IH.
  - rewrite remove_all_skip, IH; [reflexivity |].
    intros x Hx. apply filter_In in Hx as [_ Fx].
    destruct (Nat.eqb a x) eqn:E; [| reflexivity].
    apply Nat.eqb_eq in E; subst. congruence.
Qed.

(** [broadcast] on the client set: it never raises; the clients whose
    [sendall] fails are dropped from [clients], every other client receives
    the message, in order, and nothing is closed. *)
Lemma hub_broadcast_spec (m : msg) (h : hub) :
  hub_broadcast m h =
  (Ok tt,
   mkHub (filter (fun c => negb (is_failing h c)) (clients h)) (failing h)
         (delivered h ++ map (fun c => (c, m)) (filter (fun c => negb (is_failing h c)) (clients h)))
         (closed h)).
Proof.
  unfold hub_broadcast, bind at 1, get.
  unfold bind at 1. rewrite send_loop_spec. simpl.
  apply (for_each_clients_remove _ (mkHub (clients h) (failing h) _ (closed h))).
  apply remove_all_filter.
Qed.

End Hub.

(* ------------------------------------------------------------------ *)
(** ** Reading the decoder's object *)

Section Reading.

Lemma getattr_d_pure {S} (o : pyobj) (n : string) (d : pyval) (s : S) :
  getattr_d o n d s = (gd o n d, s).
Proof.
  unfold gd, getattr_d. destruct (attr_lookup o n) as [[v|e]|]; [reflexivity | | reflexivity].
  destruct (is_AttributeError e); reflexivity.
Qed.

Lemma hasattr_pure {S S'} (o : pyobj) (n : string) (s : S) (s' : S') :
  hasattr o n s = (fst (hasattr o n s'), s).
Proof.
  unfold hasattr. destruct (attr_lookup o n) as [[v|e]|]; [reflexivity | | reflexivity].
  destruct (is_AttributeError e); reflexivity.
Qed.

Lemma getattr_pure {S S'} (o : pyobj) (n : string) (s : S) (s' : S') :
  getattr o n s = (fst (getattr o n s'), s).
Proof. unfold getattr. destruct (attr_lookup o n) as [[v|e]|]; reflexivity. Qed.

Lemma bind_pure {S A B} (m : M S A) (k : A -> M S B) (s : S) (r : result A) :
  m s = (r, s) ->
  bind m k s = match r with Ok a => k a s | Exc e => (Exc e, s) end.
Proof. intros H. unfold bind. rewrite H. reflexivity. Qed.

Lemma find_symbol_id_pure {S} (o : pyobj) (attrs : list string) (s : S) :
  find_symbol_id o attrs s = (fsi o attrs, s).
Proof.
  unfold fsi. induction attrs as [| a rest IH]; simpl; [reflexivity |].
  rewrite (bind_pure _ _ _ _ (hasattr_pure o a s tt)).
  rewrite (bind_pure _ _ _ _ (hasattr_pure o a tt tt)).
  destruct (fst (hasattr o a tt)) as [[|]|e]; [| exact IH | reflexivity].
  apply getattr_pure.
Qed.

Ltac read_step :=
  first [ rewrite (bind_pure _ _ _ _ (find_symbol_id_pure _ _ _))
        | rewrite (bind_pure _ _ _ _ (getattr_d_pure _ _ _ _)) ].

Lemma read_record_pure {S} (ev : event_kind) (o : pyobj) (s : S) :
  read_record ev o s = (rr ev o, s).
Proof.
  unfold rr, read_record. read_step. read_step.
  destruct (fsi o possible_id_attrs) as [sid|e]; [| reflexivity].
  destruct sid; try reflexivity;
  repeat (read_step; read_step;
          match goal with |- match ?r with _ => _ end = _ => destruct r; try reflexivity end).
Qed.

Lemma bind_read_record {S A} (ev : event_kind) (o : pyobj) (k : option record -> M S A) (s : S) :
  bind (read_record ev o) k s =
  match rr ev o with Ok a => k a s | Exc e => (Exc e, s) end.
Proof. apply bind_pure, read_record_pure. Qed.

(** What [read_record] builds once the id is resolved. *)
Lemma rr_some (ev : event_kind) (o : pyobj) (rcd : record) :
  rr ev o = Ok (Some rcd) ->
  r_event rcd = ev /\
  fsi o possible_id_attrs = Ok (r_symbol_id rcd) /\ r_symbol_id rcd <> VNone /\
  gd o "session_id" VNone = Ok (r_session_id rcd) /\
  (exists x3 x2, gd o "x_pos" (VNum 0.5) = Ok x3 /\ gd o "xpos" x3 = Ok x2 /\
                 gd o "x" x2 = Ok (r_x rcd)) /\
  (exists y3 y2, gd o "y_pos" (VNum 0.5) = Ok y3 /\ gd o "ypos" y3 = Ok y2 /\
                 gd o "y" y2 = Ok (r_y rcd)) /\
  gd o "angle" (VInt 0) = Ok (r_angle rcd).
Proof.
  intros H. unfold rr, read_record in H.
  rewrite (bind_pure _ _ _ _ (find_symbol_id_pure _ _ _)) in H.
  destruct (fsi o possible_id_attrs) as [sid|e] eqn:Hs; [| discriminate H].
  destruct sid as [| z | r | str]; [ discriminate H | | | ];
    repeat (rewrite (bind_pure _ _ _ _ (getattr_d_pure _ _ _ _)) in H;
            match type of H with context [match gd ?o ?n ?d with _ => _ end] =>
              let E := fresh "E" in destruct (gd o n d) eqn:E; [cbv beta iota in H | discriminate H]
            end);
    simpl in H; inversion H; subst; clear H; simpl;
    repeat split; eauto; discriminate.
Qed.

End Reading.

(* ------------------------------------------------------------------ *)
(** ** The ingestion path *)

Section Ingestion.

Lemma broadcast_spec (m : msg) (s : St) :
  broadcast m s =
  (Ok tt, mkSt (latest_objects s) (snd (hub_broadcast m (hub_st s))) (trace s ++ [m])).
Proof. unfold broadcast. rewrite hub_broadcast_spec. reflexivity. Qed.

(** Computations whose only exceptions derive from [Exception] and have a
    [str] that does not raise. *)
Definition plain_raises {A} (m : M St A) : Prop :=
  forall s, match fst (m s) with
            | Ok _ => True
            | Exc e => is_Exception e = true /\ exn_str_raises e = None
            end.

Lemma plain_ret {A} (a : A) : plain_raises (ret a).
Proof. intros s. exact I. Qed.

Lemma plain_lift {A} (e : exn) (o : option A) :
  is_Exception e = true -> exn_str_raises e = None -> plain_raises (lift_opt e o).
Proof. intros H1 H2 s. destruct o; simpl; [exact I | split; assumption]. Qed.

Lemma plain_get : plain_raises get.
Proof. intros s. exact I. Qed.

Lemma plain_broadcast (m : msg) : plain_raises (broadcast m).
Proof. intros s. rewrite broadcast_spec. exact I. Qed.

Lemma plain_bind {A B} (m : M St A) (k : A -> M St B) :
  plain_raises m -> (forall a, plain_raises (k a)) -> plain_raises (bind m k).
Proof.
  intros Hm Hk s. unfold bind. specialize (Hm s).
  destruct (m s) as [[a|e] s'] eqn:E; simpl in *; [apply Hk | exact Hm].
Qed.

Lemma plain_for_each {A} (l : list A) (body : A -> M St unit) :
  (forall x, plain_raises (body x)) -> plain_raises (for_each l body).
Proof.
  intros Hb. induction l as [| x l IH]; simpl; [apply plain_ret |].
  apply plain_bind; [apply Hb | intros; exact IH].
Qed.

Ltac plain_tac :=
  repeat (first [ apply plain_bind | apply plain_for_each | apply plain_ret | apply plain_get
                | apply plain_broadcast | (apply plain_lift; reflexivity)
                | match goal with |- forall _, _ => intro end
                | match goal with |- plain_raises (if ?b then _ else _) => destruct b end ]).

Lemma plain_confirm_check (rcd : record) (sector : Z) (e : pyval * record) :
  plain_raises (confirm_check rcd sector e).
Proof. unfold confirm_check. plain_tac. Qed.

(** The selection logic raises only [TypeError], [IndexError] or the
    [KeyError] of a catalogue lookup. *)
Lemma plain_process_logic (rcd : record) : plain_raises (process_logic_and_broadcast rcd).
Proof. unfold process_logic_and_broadcast. plain_tac. apply plain_confirm_check. Qed.

(** For the selection logic, the [except Exception] handler of
    [_handle_obj] always returns normally. *)
Lemma try_process_log_error (rcd : record) (s : St) :
  try_catch_Exception (process_logic_and_broadcast rcd) log_error s =
  try_catch_Exception (process_logic_and_broadcast rcd) (fun _ => ret tt) s.
Proof.
  unfold try_catch_Exception. pose proof (plain_process_logic rcd s) as P.
  destruct (process_logic_and_broadcast rcd s) as [[u|e] s']; [reflexivity |].
  simpl in P. destruct P as [P1 P2]. rewrite P1. unfold log_error. rewrite P2. reflexivity.
Qed.

(** [_handle_obj] on an object whose record was read. *)
Lemma handle_obj_record (ev : event_kind) (obj : pyobj) (s : St) (rcd : record) :
  rr ev obj = Ok (Some rcd) ->
  handle_obj ev obj s =
  if numeric_record rcd
  then try_catch_Exception (process_logic_and_broadcast rcd) (fun _ => ret tt)
         (mkSt (registry_update ev (latest_objects s) rcd) (hub_st s) (trace s))
  else (Ok tt, s).
Proof.
  intros H. unfold handle_obj, try_catch_Exception at 1.
  rewrite bind_read_record, H.
  unfold numeric_record, registry_update.
  destruct rcd as [e sid sess x y a]; simpl.
  destruct x; destruct y; destruct a; simpl; try reflexivity;
  cbv [bind ret get set_latest_objects format_3f]; unfold try_catch_Exception;
  match goal with
  | |- context [process_logic_and_broadcast ?r ?st] =>
      pose proof (plain_process_logic r st) as P;
      destruct (process_logic_and_broadcast r st) as [[u|e'] s']
  end; simpl in *;
  first [ reflexivity
        | destruct P as [P1 P2]; rewrite P1; unfold log_error; rewrite P2; reflexivity ].
Qed.

(** [_handle_obj] on an object without a record leaves the state alone. *)
Lemma handle_obj_no_record (ev : event_kind) (obj : pyobj) (s : St) :
  (forall rcd, rr ev obj <> Ok (Some rcd)) ->
  snd (handle_obj ev obj s) = s.
Proof.
  intros H. unfold handle_obj, try_catch_Exception.
  rewrite bind_read_record.
  destruct (rr ev obj) as [[rcd|]|e] eqn:E.
  - exfalso. exact (H rcd eq_refl).
  - reflexivity.
  - destruct (is_Exception e); [unfold log_error; destruct (exn_str_raises e) |]; reflexivity.
Qed.

(** The outcome of [_handle_obj] is decided by the attribute reads. *)
Lemma handle_obj_outcome (ev : event_kind) (obj : pyobj) (s : St) :
  fst (handle_obj ev obj s) =
  match rr ev obj with
  | Ok _ => Ok tt
  | Exc e =>
      if is_Exception e
      then match exn_str_raises e with Some e' => Exc e' | None => Ok tt end
      else Exc e
  end.
Proof.
  destruct (rr ev obj) as [[rcd|]|e] eqn:E.
  - rewrite (handle_obj_record ev obj s rcd E).
    destruct (numeric_record rcd); [| reflexivity].
    unfold try_catch_Exception.
    match goal with
    | |- context [process_logic_and_broadcast rcd ?st] =>
        pose proof (plain_process_logic rcd st) as P;
        destruct (process_logic_and_broadcast rcd st) as [[u|e'] s']
    end; simpl in *; [destruct u; reflexivity | destruct P as [-> _]; reflexivity].
  - unfold handle_obj, try_catch_Exception. rewrite bind_read_record, E. reflexivity.
  - unfold handle_obj, try_catch_Exception. rewrite bind_read_record, E. simpl.
    destruct (is_Exception e); [unfold log_error; destruct (exn_str_raises e) |]; reflexivity.
Qed.

Lemma bind_broadcast {A} (m : msg) (k : unit -> M St A) (s : St) :
  bind (broadcast m) k s =
  k tt (mkSt (latest_objects s) (snd (hub_broadcast m (hub_st s))) (trace s ++ [m])).
Proof. unfold bind. rewrite broadcast_spec. reflexivity. Qed.

(** For a [remove] record, only the raw passthrough is broadcast. *)
Lemma process_logic_remove (rcd : record) (s : St) :
  r_event rcd = Remove ->
  process_logic_and_broadcast rcd s =
  (Ok tt, mkSt (latest_objects s) (snd (hub_broadcast (TuioObj rcd) (hub_st s)))
               (trace s ++ [TuioObj rcd])).
Proof.
  intros H. unfold process_logic_and_broadcast. rewrite H. simpl.
  rewrite !andb_false_r. rewrite bind_broadcast. reflexivity.
Qed.

End Ingestion.

(* ------------------------------------------------------------------ *)
(** ** Registry and frame lemmas *)

Lemma key_eqb_refl (k : pyval) : key_eqb k k = true.
Proof.
  destruct k; simpl; try reflexivity.
  - apply Z.eqb_refl.
  - destruct (Req_dec_T r r); congruence.
  - apply String.eqb_refl.
Qed.


Lemma dict_pop_absent {V} (d : dict V) (k : pyval) :
  dict_get d k = None -> dict_pop d k = d.
Proof.
  induction d as [| [k' v'] d IH]; simpl; [reflexivity |].
  destruct (key_eqb k' k); [discriminate | intros H; rewrite IH; auto].
Qed.

Lemma keeps_ret {A} (a : A) : keeps_reg (ret a).
Proof. intros s; reflexivity. Qed.

Lemma keeps_raise {A} (e : exn) : keeps_reg (A := A) (raise e).
Proof. intros s; reflexivity. Qed.

Lemma keeps_lift {A} (e : exn) (o : option A) : keeps_reg (lift_opt e o).
Proof. destruct o; intros s; reflexivity. Qed.

Lemma keeps_get : keeps_reg get.
Proof. intros s; reflexivity. Qed.

Lemma keeps_broadcast (m : msg) : keeps_reg (broadcast m).
Proof. intros s. rewrite broadcast_spec. reflexivity. Qed.

Lemma keeps_bind {A B} (m : M St A) (k : A -> M St B) :
  keeps_reg m -> (forall a, keeps_reg (k a)) -> keeps_reg (bind m k).
Proof.
  intros Hm Hk s. unfold bind. specialize (Hm s).
  destruct (m s) as [[a|e] s'] eqn:E; simpl in *; [rewrite Hk | ]; exact Hm.
Qed.

Lemma keeps_for_each {A} (l : list A) (body : A -> M St unit) :
  (forall x, keeps_reg (body x)) -> keeps_reg (for_each l body).
Proof.
  intros Hb. induction l as [| x l IH]; simpl; [apply keeps_ret |].
  apply keeps_bind; [apply Hb | intros; exact IH].
Qed.

Lemma keeps_try {A} (m : M St A) (h : exn -> M St A) :
  keeps_reg m -> (forall e, keeps_reg (h e)) -> keeps_reg (try_catch_Exception m h).
Proof.
  intros Hm Hh s. unfold try_catch_Exception. specialize (Hm s).
  destruct (m s) as [[a|e] s'] eqn:E; simpl in *; [exact Hm |].
  destruct (is_Exception e); simpl; [rewrite Hh |]; exact Hm.
Qed.

Create HintDb keeps.
#[local] Hint Resolve keeps_ret keeps_raise keeps_lift keeps_get keeps_broadcast : keeps.

Ltac keeps_tac :=
  repeat (first [ apply keeps_bind | apply keeps_for_each | apply keeps_try
                | progress (auto with keeps)
                | match goal with |- forall _, _ => intro end
                | match goal with |- keeps_reg (if ?b then _ else _) => destruct b end
                | match goal with |- keeps_reg (let (_, _) := ?p in _) => destruct p end ]).

Lemma keeps_confirm_check (rcd : record) (sector : Z) (e : pyval * record) :
  keeps_reg (confirm_check rcd sector e).
Proof. unfold confirm_check. keeps_tac. Qed.

(** The selection logic only reads the registry. *)
Lemma keeps_process_logic (rcd : record) : keeps_reg (process_logic_and_broadcast rcd).
Proof.
  unfold process_logic_and_broadcast. keeps_tac. apply keeps_confirm_check.
Qed.

Lemma filter_all_true (p : chan -> bool) (l : list chan) :
  (forall x, In x l -> p x = true) -> filter p l = l.
Proof.
  induction l as [| a l IH]; intros H; simpl; [reflexivity |].
  rewrite (H a (or_introl eq_refl)), IH; [reflexivity |].
  intros x Hx; apply H; right; exact Hx.
Qed.

Lemma filter_neq_length (f : chan) (l : list chan) :
  NoDup l -> In f l ->
  List.length (filter (fun c => negb (Nat.eqb c f)) l) = List.length l - 1.
Proof.
  unfold chan in *.
  induction l as [| a l IH]; intros Hnd Hin; [contradiction |].
  inversion Hnd as [| a' l' Hnotin Hnd' Heq]; subst. simpl.
  destruct Hin as [-> | Hin].
  - rewrite Nat.eqb_refl. simpl. rewrite filter_all_true; [lia |].
    intros x Hx. destruct (Nat.eqb x f) eqn:E; [| reflexivity].
    apply Nat.eqb_eq in E; subst; contradiction.
  - assert (E : Nat.eqb a f = false).
    { apply Nat.eqb_neq. intros ->. contradiction. }
    rewrite E. simpl. rewrite IH by assumption.
    destruct l; [contradiction | simpl; lia].
Qed.

Lemma Int_part_IZR (z : Z) : Int_part (IZR z) = z.
Proof.
  unfold Int_part.
  rewrite <- (tech_up (IZR z) (z + 1)); [ring | rewrite plus_IZR; lra | rewrite plus_IZR; lra].
Qed.

Lemma py_int_IZR (z : Z) : (0 <= z)%Z -> py_int (IZR z) = z.
Proof.
  intros Hz. unfold py_int. destruct (Rle_dec 0 (IZR z)) as [_ | H].
  - apply Int_part_IZR.
  - exfalso. apply H. apply IZR_le. exact Hz.
Qed.

(** Two markers without [session_id] overwrite one another in the
    registry. *)
Example bare_objects_share_entry :
  latest_objects (snd (handle_obj Add (bare_obj 5) (snd (handle_obj Add (bare_obj 4) st_empty)))) =
  [(VNone, make_record Add (VInt 5) VNone (VNum 0.5) (VNum 0.5) (VInt 0))].
Proof. reflexivity. Qed.

(* ================================================================== *)
(** * The claims *)

(** C1 (code_bug). When a select marker is added within
    [PROXIMITY_THRESHOLD] of a live rotate marker, [_handle_obj] broadcasts
    only the raw [tuio_obj] message: no [wheel_select_confirm] is emitted,
    because the proximity scan runs only on rotate-marker events. *)
Theorem select_add_near_rotate_no_confirm :
  (hypot (0.52 - 0.5) (0.52 - 0.5) < PROXIMITY_THRESHOLD)%R /\
  handle_obj Add select_obj st_rotating =
  (Ok tt,
   mkSt [(VInt 1000, rotate_at_pi);
         (VInt 1001, make_record Add (VInt 1) (VInt 1001) (VNum 0.52) (VNum 0.52) (VInt 0))]
        (mkHub [] [] [] [])
        [TuioObj (make_record Add (VInt 1) (VInt 1001) (VNum 0.52) (VNum 0.52) (VInt 0))]).
Proof.
  split; [| reflexivity].
  unfold hypot, PROXIMITY_THRESHOLD.
  rewrite <- (sqrt_square 0.08) by lra.
  apply sqrt_lt_1; nra.
Qed.

(** C2. For every sector count [n >= 1]: the sector of every angle, and
    indeed of every fraction, lies in [[0, n)]; angle 0 gives sector 0; and
    the boundary fraction 1 wraps back to sector 0 through the final
    modulo. *)
Theorem wheel_sector_bounds (n : Z) (angle frac : R) :
  (1 <= n)%Z ->
  (0 <= wheel_sector n angle < n)%Z /\
  (0 <= sector_of_frac n frac < n)%Z /\
  wheel_sector n 0 = 0%Z /\
  sector_of_frac n 1 = 0%Z.
Proof.
  intros Hn. split; [| split; [| split]].
  - unfold wheel_sector, sector_of_frac. apply Z.mod_pos_bound. lia.
  - unfold sector_of_frac. apply Z.mod_pos_bound. lia.
  - unfold wheel_sector, wheel_theta, py_fmod, sector_of_frac.
    replace (0 / (2 * PI))%R with (IZR 0) by (unfold Rdiv; ring).
    rewrite Int_part_IZR.
    replace ((0 - 2 * PI * IZR 0) / (2 * PI) * IZR n)%R with (IZR 0) by (unfold Rdiv; ring).
    rewrite py_int_IZR by lia. apply Z.mod_0_l. lia.
  - unfold sector_of_frac. rewrite Rmult_1_l, py_int_IZR by lia.
    apply Z.mod_same. lia.
Qed.

Lemma wheel_sector_bounds_witness :
  (1 <= NUM_WHEEL_SECTORS)%Z /\
  (0 <= wheel_sector NUM_WHEEL_SECTORS PI < NUM_WHEEL_SECTORS)%Z /\
  (0 <= sector_of_frac NUM_WHEEL_SECTORS 1 < NUM_WHEEL_SECTORS)%Z /\
  wheel_sector NUM_WHEEL_SECTORS 0 = 0%Z /\
  sector_of_frac NUM_WHEEL_SECTORS 1 = 0%Z.
Proof.
  split; [vm_compute; discriminate |].
  apply (wheel_sector_bounds NUM_WHEEL_SECTORS PI 1). vm_compute. discriminate.
Defined.

Lemma close_loop (l : list chan) (h : hub) :
  for_each l close_quietly h = (Ok tt, mkHub (clients h) (failing h) (delivered h) (closed h ++ l)).
Proof.
  revert h. induction l as [| c l IH]; intros h; simpl.
  - rewrite app_nil_r. destruct h; reflexivity.
  - unfold bind at 1, close_quietly at 1. rewrite IH. simpl. rewrite <- app_assoc. reflexivity.
Qed.


(** What [shutdown()] does to the client set. *)
Lemma shutdown_spec (h : hub) :
  shutdown h = (Exc SystemExit, mkHub [] (failing h) (delivered h) (closed h ++ clients h)).
Proof. unfold shutdown, bind at 1, get at 1. unfold bind at 1. rewrite close_loop. reflexivity. Qed.

(** C3 (code_bug). When exactly one of the [N] distinct registered
    clients, not yet closed, fails on send, [broadcast] raises nothing,
    delivers the message, in order, to the other [N - 1] clients and
    removes exactly the failing client from [clients], but it does not
    close the failing socket; a later [shutdown()] does not close it
    either, since it closes only the sockets still in [clients]. *)
Theorem broadcast_drops_broken_channel_unclosed (m : msg) (h : hub) (f : chan) :
  NoDup (clients h) -> In f (clients h) ->
  (forall c, In c (clients h) -> is_failing h c = Nat.eqb c f) ->
  ~ In f (closed h) ->
  fst (hub_broadcast m h) = Ok tt /\
  clients (snd (hub_broadcast m h)) = filter (fun c => negb (Nat.eqb c f)) (clients h) /\
  List.length (clients (snd (hub_broadcast m h))) = List.length (clients h) - 1 /\
  delivered (snd (hub_broadcast m h)) =
    delivered h ++ map (fun c => (c, m)) (clients (snd (hub_broadcast m h))) /\
  ~ In f (closed (snd (hub_broadcast m h))) /\
  ~ In f (closed (snd (shutdown (snd (hub_broadcast m h))))).
Proof.
  intros Hnd Hin Hf Hc. rewrite shutdown_spec, hub_broadcast_spec. simpl.
  assert (E : filter (fun c => negb (is_failing h c)) (clients h) =
              filter (fun c => negb (Nat.eqb c f)) (clients h)).
  { apply filter_ext_in. intros c Hc'. rewrite Hf by exact Hc'. reflexivity. }
  rewrite E. split; [reflexivity |]. split; [reflexivity |].
  split; [apply filter_neq_length; assumption |]. split; [reflexivity |].
  split; [exact Hc |].
  intros Hin'. apply in_app_or in Hin' as [Hin' | Hin']; [exact (Hc Hin') |].
  apply filter_In in Hin' as [_ Hneq]. rewrite Nat.eqb_refl in Hneq. discriminate.
Qed.

Lemma broadcast_drops_broken_channel_unclosed_witness :
  (NoDup (clients hub_one_broken) /\ In 2%nat (clients hub_one_broken) /\
   (forall c, In c (clients hub_one_broken) -> is_failing hub_one_broken c = Nat.eqb c 2) /\
   ~ In 2%nat (closed hub_one_broken)) /\
  ~ In 2%nat (closed (snd (hub_broadcast BackPressed hub_one_broken))) /\
  ~ In 2%nat (closed (snd (shutdown (snd (hub_broadcast BackPressed hub_one_broken))))).
Proof.
  assert (H1 : NoDup (clients hub_one_broken)).
  { simpl. repeat constructor; simpl; intuition discriminate. }
  assert (H2 : In 2%nat (clients hub_one_broken)) by (simpl; auto).
  assert (H3 : forall c, In c (clients hub_one_broken) -> is_failing hub_one_broken c = Nat.eqb c 2).
  { intros c [<- | [<- | [<- | []]]]; reflexivity. }
  assert (H4 : ~ In 2%nat (closed hub_one_broken)) by (simpl; intros []).
  split; [split; [exact H1 | split; [exact H2 | split; [exact H3 | exact H4]]] |].
  destruct (broadcast_drops_broken_channel_unclosed BackPressed hub_one_broken 2 H1 H2 H3 H4)
    as [_ [_ [_ [_ [H5 H6]]]]].
  split; [exact H5 | exact H6].
Defined.

(** C4. A [remove] event either is discarded altogether (the object has no
    readable record, or it fails the log formatting: nothing changes), or
    it broadcasts exactly the raw [tuio_obj] message and pops the session
    from the registry; no other message is ever emitted for [remove]. *)
Theorem remove_event_raw_only (obj : pyobj) (s : St) :
  snd (handle_obj Remove obj s) = s \/
  exists rcd, rr Remove obj = Ok (Some rcd) /\
    handle_obj Remove obj s =
    (Ok tt, mkSt (dict_pop (latest_objects s) (r_session_id rcd))
                 (snd (hub_broadcast (TuioObj rcd) (hub_st s)))
                 (trace s ++ [TuioObj rcd])).
Proof.
  destruct (rr Remove obj) as [[rcd|]|e] eqn:E.
  - rewrite (handle_obj_record _ _ s _ E).
    destruct (numeric_record rcd); [right | left; reflexivity].
    exists rcd. split; [reflexivity |].
    unfold try_catch_Exception. rewrite process_logic_remove by apply (proj1 (rr_some _ _ _ E)).
    reflexivity.
  - left. apply handle_obj_no_record. intros rcd. rewrite E. discriminate.
  - left. apply handle_obj_no_record. intros rcd. rewrite E. discriminate.
Qed.



(** C6. An object exposing none of [fiducial_id], [symbol_id],
    [class_id], [pattern_id] is discarded: the state (registry, clients and
    broadcast messages) is unchanged and no exception escapes. *)
Theorem unidentified_object_discarded (ev : event_kind) (obj : pyobj) (s : St) :
  (forall a, In a possible_id_attrs -> attr_lookup obj a = None) ->
  handle_obj ev obj s = (Ok tt, s).
Proof.
  intros H.
  assert (Hf : fsi obj possible_id_attrs = Ok VNone).
  { unfold fsi, possible_id_attrs, find_symbol_id, bind, hasattr.
    rewrite !H by (simpl; tauto). reflexivity. }
  assert (Hr : rr ev obj = Ok None).
  { unfold rr, read_record. rewrite (bind_pure _ _ _ _ (find_symbol_id_pure _ _ _)), Hf.
    reflexivity. }
  unfold handle_obj, try_catch_Exception. rewrite bind_read_record, Hr. reflexivity.
Qed.

Lemma unidentified_object_discarded_witness :
  (forall a, In a possible_id_attrs -> attr_lookup anonymous_obj a = None) /\
  handle_obj Update anonymous_obj st_rotating = (Ok tt, st_rotating).
Proof.
  assert (H : forall a, In a possible_id_attrs -> attr_lookup anonymous_obj a = None).
  { intros a [<- | [<- | [<- | [<- | []]]]]; reflexivity. }
  split; [exact H | exact (unidentified_object_discarded Update anonymous_obj st_rotating H)].
Defined.

(** C7. A [remove] event for a session that is not in the registry leaves
    the registry unchanged and raises nothing. *)
Theorem remove_absent_session_noop (obj : pyobj) (s : St) (rcd : record) :
  rr Remove obj = Ok (Some rcd) ->
  dict_get (latest_objects s) (r_session_id rcd) = None ->
  latest_objects (snd (handle_obj Remove obj s)) = latest_objects s /\
  fst (handle_obj Remove obj s) = Ok tt.
Proof.
  intros E Habs. rewrite (handle_obj_record _ _ s _ E).
  destruct (numeric_record rcd); [| split; reflexivity].
  unfold try_catch_Exception.
  rewrite process_logic_remove by apply (proj1 (rr_some _ _ _ E)).
  simpl. unfold registry_update. simpl.
  rewrite dict_pop_absent by exact Habs. split; reflexivity.
Qed.

Lemma remove_absent_session_noop_witness :
  (rr Remove rotate_obj =
     Ok (Some (make_record Remove (VInt 0) (VInt 42) (VNum 0.25) (VNum 0.75) (VNum 1))) /\
   dict_get (latest_objects st_rotating) (VInt 42) = None) /\
  (latest_objects (snd (handle_obj Remove rotate_obj st_rotating)) = latest_objects st_rotating /\
   fst (handle_obj Remove rotate_obj st_rotating) = Ok tt).
Proof.
  assert (H1 : rr Remove rotate_obj =
     Ok (Some (make_record Remove (VInt 0) (VInt 42) (VNum 0.25) (VNum 0.75) (VNum 1))))
    by reflexivity.
  assert (H2 : dict_get (latest_objects st_rotating) (VInt 42) = None) by reflexivity.
  split; [split; [exact H1 | exact H2] |].
  exact (remove_absent_session_noop rotate_obj st_rotating _ H1 H2).
Defined.

(** C8. Registering a client and then unregistering it leaves the number
    of registered clients as it was. *)
Theorem register_unregister_size (c : chan) (h : hub) :
  List.length (clients (unregister c (register c h))) = List.length (clients h).
Proof.
  unfold unregister, register. simpl.
  rewrite existsb_app. simpl. rewrite Nat.eqb_refl, orb_true_r.
  destruct (list_remove_app_last c (clients h)) as [l' [-> Hl]]. exact Hl.
Qed.





(* ================================================================== *)
(** * Further properties of the code *)

(* ------------------------------------------------------------------ *)
(** ** The wheel arithmetic *)

Lemma Int_part_unique (r : R) (z : Z) :
  (IZR z <= r < IZR z + 1)%R -> Int_part r = z.
Proof.
  intros [H1 H2]. unfold Int_part.
  rewrite <- (tech_up r (z + 1)); [ring | rewrite plus_IZR; lra | rewrite plus_IZR; lra].
Qed.

Lemma Int_part_add_IZR (r : R) (k : Z) : Int_part (r + IZR k) = (Int_part r + k)%Z.
Proof.
  apply Int_part_unique. rewrite plus_IZR.
  destruct (base_Int_part r) as [H1 H2]. lra.
Qed.

Lemma two_PI_pos : (0 < 2 * PI)%R.
Proof. pose proof PI_RGT_0. lra. Qed.

(** The sector is periodic in the angle with period [2*pi]. *)
Theorem wheel_sector_periodic (n : Z) (angle : R) (k : Z) :
  wheel_sector n (angle + 2 * PI * IZR k) = wheel_sector n angle.
Proof.
  unfold wheel_sector, wheel_theta, py_fmod. pose proof two_PI_pos as Hp.
  replace ((angle + 2 * PI * IZR k) / (2 * PI))%R with (angle / (2 * PI) + IZR k)%R
    by (field; lra).
  rewrite Int_part_add_IZR, plus_IZR.
  replace (angle + 2 * PI * IZR k - 2 * PI * (IZR (Int_part (angle / (2 * PI))) + IZR k))%R
    with (angle - 2 * PI * IZR (Int_part (angle / (2 * PI))))%R by ring.
  reflexivity.
Qed.

(* ------------------------------------------------------------------ *)
(** ** The selection logic, by kind of marker *)

Lemma py_eq_int_unique (v : pyval) (a b : Z) :
  py_eq_int v a = true -> py_eq_int v b = true -> a = b.
Proof.
  destruct v as [| z | r | str]; simpl; try discriminate.
  - intros Ha Hb. apply Z.eqb_eq in Ha, Hb. congruence.
  - destruct (Req_dec_T r (IZR a)) as [Ea|]; [| discriminate].
    destruct (Req_dec_T r (IZR b)) as [Eb|]; [| discriminate].
    intros _ _. apply eq_IZR. congruence.
Qed.

Lemma med_in_key (v : pyval) :
  med_in v = true -> exists k name, In (k, name) MEDICATION_SYMBOLS /\ py_eq_int v k = true.
Proof.
  unfold med_in, med_lookup.
  destruct (find (fun kv => py_eq_int v (fst kv)) MEDICATION_SYMBOLS) as [[k name]|] eqn:E;
    [| discriminate].
  intros _. apply find_some in E as [Hin Hk]. eauto.
Qed.

Lemma med_key_range (k : Z) (name : string) :
  In (k, name) MEDICATION_SYMBOLS -> (2 <= k <= 11)%Z.
Proof.
  simpl. intros H; repeat destruct H as [H | H]; try contradiction; injection H; intros; subst; lia.
Qed.

Lemma med_in_not (v : pyval) (n : Z) :
  (n < 2 \/ 11 < n)%Z -> py_eq_int v n = true -> med_in v = false.
Proof.
  intros Hn Hv. destruct (med_in v) eqn:E; [| reflexivity].
  destruct (med_in_key v E) as (k & name & Hin & Hk).
  pose proof (med_key_range k name Hin). pose proof (py_eq_int_unique v n k Hv Hk). lia.
Qed.

Lemma py_eq_int_other (v : pyval) (a b : Z) :
  a <> b -> py_eq_int v a = true -> py_eq_int v b = false.
Proof.
  intros Hab Ha. destruct (py_eq_int v b) eqn:Hb; [| reflexivity].
  exfalso. apply Hab. exact (py_eq_int_unique v a b Ha Hb).
Qed.

Lemma med_lookup_In (z : Z) (name : string) :
  In (z, name) MEDICATION_SYMBOLS -> med_lookup (VInt z) = Some name.
Proof.
  simpl. intros H; repeat destruct H as [H | H]; try contradiction;
    injection H; intros; subst; reflexivity.
Qed.

Ltac run_logic :=
  cbv [andb is_add is_add_or_update ret lift_opt bind];
  repeat (rewrite broadcast_spec; cbv beta iota zeta);
  cbn [latest_objects hub_st trace].

(** A marker that is not the rotate marker, on an event that is not an
    [add] of a medication or back marker, broadcasts only [tuio_obj]. *)
Theorem non_semantic_event_raw_only (rcd : record) (s : St) :
  py_eq_int (r_symbol_id rcd) ROTATE_SYMBOL = false ->
  (is_add (r_event rcd) = false \/
   (med_in (r_symbol_id rcd) = false /\ py_eq_int (r_symbol_id rcd) BACK_SYMBOL = false)) ->
  process_logic_and_broadcast rcd s =
  (Ok tt, mkSt (latest_objects s) (snd (hub_broadcast (TuioObj rcd) (hub_st s)))
               (trace s ++ [TuioObj rcd])).
Proof.
  intros Hrot Hcase. unfold process_logic_and_broadcast. rewrite bind_broadcast, Hrot.
  destruct Hcase as [Hadd | [Hmed Hback]].
  - rewrite Hadd, !andb_false_r. reflexivity.
  - rewrite Hmed, Hback. reflexivity.
Qed.

Lemma non_semantic_event_raw_only_witness :
  (py_eq_int (VInt SELECT_SYMBOL) ROTATE_SYMBOL = false /\
   (is_add Add = false \/
    (med_in (VInt SELECT_SYMBOL) = false /\ py_eq_int (VInt SELECT_SYMBOL) BACK_SYMBOL = false))) /\
  process_logic_and_broadcast (make_record Add (VInt SELECT_SYMBOL) (VInt 1001) (VNum 0.52) (VNum 0.52) (VInt 0)) st_rotating =
  (Ok tt, mkSt (latest_objects st_rotating)
               (snd (hub_broadcast (TuioObj (make_record Add (VInt SELECT_SYMBOL) (VInt 1001) (VNum 0.52) (VNum 0.52) (VInt 0))) (hub_st st_rotating)))
               (trace st_rotating ++ [TuioObj (make_record Add (VInt SELECT_SYMBOL) (VInt 1001) (VNum 0.52) (VNum 0.52) (VInt 0))])).
Proof.
  assert (H1 : py_eq_int (VInt SELECT_SYMBOL) ROTATE_SYMBOL = false) by reflexivity.
  assert (H2 : is_add Add = false \/
    (med_in (VInt SELECT_SYMBOL) = false /\ py_eq_int (VInt SELECT_SYMBOL) BACK_SYMBOL = false))
    by (right; split; reflexivity).
  split; [split; [exact H1 | exact H2] |].
  exact (non_semantic_event_raw_only
           (make_record Add (VInt SELECT_SYMBOL) (VInt 1001) (VNum 0.52) (VNum 0.52) (VInt 0))
           st_rotating H1 H2).
Defined.

(** Adding a medication marker broadcasts [tuio_obj] then
    [medication_selected] with the catalogue name of that marker, and
    nothing else. *)
Theorem medication_add_emits (rcd : record) (s : St) (z : Z) (name : string) :
  r_symbol_id rcd = VInt z -> In (z, name) MEDICATION_SYMBOLS -> r_event rcd = Add ->
  process_logic_and_broadcast rcd s =
  (Ok tt, mkSt (latest_objects s)
               (snd (hub_broadcast (MedicationSelected name (VInt z))
                                   (snd (hub_broadcast (TuioObj rcd) (hub_st s)))))
               (trace s ++ [TuioObj rcd; MedicationSelected name (VInt z)])).
Proof.
  intros Hs Hin He. pose proof (med_key_range z name Hin) as Hr.
  unfold process_logic_and_broadcast. rewrite bind_broadcast, Hs, He.
  unfold med_in. rewrite (med_lookup_In z name Hin).
  assert (H0 : py_eq_int (VInt z) ROTATE_SYMBOL = false)
    by (simpl; apply Z.eqb_neq; unfold ROTATE_SYMBOL; lia).
  assert (H12 : py_eq_int (VInt z) BACK_SYMBOL = false)
    by (simpl; apply Z.eqb_neq; unfold BACK_SYMBOL; lia).
  rewrite H0, H12. run_logic. rewrite <- app_assoc. reflexivity.
Qed.

Lemma medication_add_emits_witness :
  (r_symbol_id (make_record Add (VInt 4) (VInt 1002) (VNum 0.3) (VNum 0.3) (VInt 0)) = VInt 4 /\
   In (4%Z, "Aspirin") MEDICATION_SYMBOLS /\
   r_event (make_record Add (VInt 4) (VInt 1002) (VNum 0.3) (VNum 0.3) (VInt 0)) = Add) /\
  trace (snd (process_logic_and_broadcast
                (make_record Add (VInt 4) (VInt 1002) (VNum 0.3) (VNum 0.3) (VInt 0)) st_empty)) =
  [TuioObj (make_record Add (VInt 4) (VInt 1002) (VNum 0.3) (VNum 0.3) (VInt 0));
   MedicationSelected "Aspirin" (VInt 4)].
Proof.
  assert (H1 : r_symbol_id (make_record Add (VInt 4) (VInt 1002) (VNum 0.3) (VNum 0.3) (VInt 0)) = VInt 4)
    by reflexivity.
  assert (H2 : In (4%Z, "Aspirin") MEDICATION_SYMBOLS) by (simpl; tauto).
  assert (H3 : r_event (make_record Add (VInt 4) (VInt 1002) (VNum 0.3) (VNum 0.3) (VInt 0)) = Add)
    by reflexivity.
  split; [split; [exact H1 | split; [exact H2 | exact H3]] |].
  rewrite (medication_add_emits _ st_empty 4 "Aspirin" H1 H2 H3). reflexivity.
Defined.

(** Adding the back marker broadcasts [tuio_obj] then [back_pressed], and
    nothing else. *)
Theorem back_add_emits (rcd : record) (s : St) :
  py_eq_int (r_symbol_id rcd) BACK_SYMBOL = true -> r_event rcd = Add ->
  process_logic_and_broadcast rcd s =
  (Ok tt, mkSt (latest_objects s)
               (snd (hub_broadcast BackPressed (snd (hub_broadcast (TuioObj rcd) (hub_st s)))))
               (trace s ++ [TuioObj rcd; BackPressed])).
Proof.
  intros Hb He.
  assert (Hm : med_in (r_symbol_id rcd) = false) by (apply (med_in_not _ 12); [lia | exact Hb]).
  assert (H0 : py_eq_int (r_symbol_id rcd) ROTATE_SYMBOL = false)
    by (apply (py_eq_int_other _ BACK_SYMBOL); [discriminate | exact Hb]).
  unfold process_logic_and_broadcast. rewrite bind_broadcast, Hm, H0, Hb, He.
  run_logic. rewrite <- app_assoc. reflexivity.
Qed.

Lemma back_add_emits_witness :
  (py_eq_int (r_symbol_id (make_record Add (VInt 12) (VInt 9) (VNum 0.5) (VNum 0.5) (VInt 0))) BACK_SYMBOL = true /\
   r_event (make_record Add (VInt 12) (VInt 9) (VNum 0.5) (VNum 0.5) (VInt 0)) = Add) /\
  trace (snd (process_logic_and_broadcast
                (make_record Add (VInt 12) (VInt 9) (VNum 0.5) (VNum 0.5) (VInt 0)) st_empty)) =
  [TuioObj (make_record Add (VInt 12) (VInt 9) (VNum 0.5) (VNum 0.5) (VInt 0)); BackPressed].
Proof.
  assert (H1 : py_eq_int (r_symbol_id (make_record Add (VInt 12) (VInt 9) (VNum 0.5) (VNum 0.5) (VInt 0))) BACK_SYMBOL = true)
    by reflexivity.
  assert (H2 : r_event (make_record Add (VInt 12) (VInt 9) (VNum 0.5) (VNum 0.5) (VInt 0)) = Add)
    by reflexivity.
  split; [split; [exact H1 | exact H2] |].
  rewrite (back_add_emits _ st_empty H1 H2). reflexivity.
Defined.

(* ------------------------------------------------------------------ *)
(** ** The registry written by [_handle_obj] *)


Lemma registry_numeric_set (d : dict record) (k : pyval) (v : record) :
  registry_numeric d -> numeric_record v = true -> registry_numeric (dict_set d k v).
Proof.
  unfold registry_numeric. induction d as [| [k' v'] d IH]; simpl; intros Hd Hv.
  - rewrite Hv. reflexivity.
  - apply andb_prop in Hd as [Hv' Hd].
    destruct (key_eqb k' k); simpl; rewrite ?Hv, ?Hv', ?Hd, ?IH; auto.
Qed.

Lemma registry_numeric_pop (d : dict record) (k : pyval) :
  registry_numeric d -> registry_numeric (dict_pop d k).
Proof.
  unfold registry_numeric. induction d as [| [k' v'] d IH]; simpl; intros Hd; [reflexivity |].
  apply andb_prop in Hd as [Hv' Hd].
  destruct (key_eqb k' k); simpl; rewrite ?Hv', ?Hd, ?IH; auto.
Qed.

Lemma dict_pop_set {V} (d : dict V) (k : pyval) (v : V) :
  dict_pop (dict_set d k v) k = dict_pop d k.
Proof.
  induction d as [| [k' v'] d IH]; simpl.
  - rewrite key_eqb_refl. reflexivity.
  - destruct (key_eqb k' k) eqn:E; simpl; rewrite E; [reflexivity | rewrite IH; reflexivity].
Qed.

Lemma handle_obj_registry_core (ev : event_kind) (obj : pyobj) (s : St) (rcd : record) :
  rr ev obj = Ok (Some rcd) -> numeric_record rcd = true ->
  latest_objects (snd (handle_obj ev obj s)) = registry_update ev (latest_objects s) rcd.
Proof.
  intros E Hn. rewrite (handle_obj_record _ _ s _ E), Hn.
  rewrite (keeps_try _ _ (keeps_process_logic rcd) (fun _ => keeps_ret tt)). reflexivity.
Qed.



(** An object whose position or angle is not a number is rejected by the
    [:.3f] formatting of the log line: the [TypeError] is caught and
    nothing at all changes. *)
Theorem handle_obj_non_numeric_noop (ev : event_kind) (obj : pyobj) (s : St) (rcd : record) :
  rr ev obj = Ok (Some rcd) -> numeric_record rcd = false ->
  handle_obj ev obj s = (Ok tt, s).
Proof. intros E Hn. rewrite (handle_obj_record _ _ s _ E), Hn. reflexivity. Qed.

Lemma handle_obj_non_numeric_noop_witness :
  (rr Add (SimulatedTuioObject (VInt 4) (VInt 7) (VStr "left") (VNum 0.3) (VInt 0)) =
     Ok (Some (make_record Add (VInt 4) (VInt 7) (VStr "left") (VNum 0.3) (VInt 0))) /\
   numeric_record (make_record Add (VInt 4) (VInt 7) (VStr "left") (VNum 0.3) (VInt 0)) = false) /\
  handle_obj Add (SimulatedTuioObject (VInt 4) (VInt 7) (VStr "left") (VNum 0.3) (VInt 0)) st_rotating =
  (Ok tt, st_rotating).
Proof.
  assert (H1 : rr Add (SimulatedTuioObject (VInt 4) (VInt 7) (VStr "left") (VNum 0.3) (VInt 0)) =
     Ok (Some (make_record Add (VInt 4) (VInt 7) (VStr "left") (VNum 0.3) (VInt 0)))) by reflexivity.
  assert (H2 : numeric_record (make_record Add (VInt 4) (VInt 7) (VStr "left") (VNum 0.3) (VInt 0)) = false)
    by reflexivity.
  split; [split; assumption |].
  exact (handle_obj_non_numeric_noop Add _ st_rotating _ H1 H2).
Defined.

Lemma handle_obj_registry_numeric_core (ev : event_kind) (obj : pyobj) (s : St) :
  registry_numeric (latest_objects s) ->
  registry_numeric (latest_objects (snd (handle_obj ev obj s))).
Proof.
  intros Hreg. destruct (rr ev obj) as [[rcd|]|e] eqn:E.
  - destruct (numeric_record rcd) eqn:Hn.
    + rewrite (handle_obj_registry_core _ _ s _ E Hn). unfold registry_update.
      destruct (is_add_or_update ev);
        [apply registry_numeric_set; assumption | apply registry_numeric_pop; assumption].
    + rewrite (handle_obj_record _ _ s _ E), Hn. exact Hreg.
  - rewrite handle_obj_no_record; [exact Hreg |]. intros rcd. rewrite E. discriminate.
  - rewrite handle_obj_no_record; [exact Hreg |]. intros rcd. rewrite E. discriminate.
Qed.

(** [latest_objects] only ever holds records whose position and angle are
    numbers: [_handle_obj] preserves this. *)
Theorem handle_obj_registry_numeric (ev : event_kind) (obj : pyobj) (s : St) :
  registry_numeric (latest_objects s) ->
  registry_numeric (latest_objects (snd (handle_obj ev obj s))).
Proof. exact (handle_obj_registry_numeric_core ev obj s). Qed.

Lemma handle_obj_registry_numeric_witness :
  registry_numeric (latest_objects st_rotating) /\
  registry_numeric (latest_objects (snd (handle_obj Add select_obj st_rotating))).
Proof.
  assert (H : registry_numeric (latest_objects st_rotating)) by reflexivity.
  split; [exact H |]. exact (handle_obj_registry_numeric Add select_obj st_rotating H).
Defined.

Lemma handle_obj_readable_ok_core (ev : event_kind) (obj : pyobj) (s : St) (o : option record) :
  rr ev obj = Ok o -> registry_numeric (latest_objects s) ->
  fst (handle_obj ev obj s) = Ok tt.
Proof. intros E _. rewrite handle_obj_outcome, E. reflexivity. Qed.




(* ------------------------------------------------------------------ *)
(** ** The client set: registration, disconnection, broadcast, shutdown *)

(** [shutdown()] closes every registered client, in order, sends nothing,
    empties [clients] and ends in [SystemExit], which [except Exception]
    does not catch; a broadcast afterwards reaches nobody. *)
Theorem shutdown_closes_all (h : hub) (m : msg) :
  shutdown h = (Exc SystemExit, mkHub [] (failing h) (delivered h) (closed h ++ clients h)) /\
  is_Exception SystemExit = false /\
  hub_broadcast m (snd (shutdown h)) = (Ok tt, snd (shutdown h)).
Proof.
  pose proof (shutdown_spec h) as E.
  split; [exact E | split; [reflexivity |]].
  rewrite E. simpl. rewrite hub_broadcast_spec. simpl. rewrite app_nil_r. reflexivity.
Qed.

Lemma list_remove_nodup (c : chan) (l : list chan) :
  NoDup l -> In c l ->
  list_remove Nat.eqb c l = Some (filter (fun x => negb (Nat.eqb x c)) l).
Proof.
  induction l as [| a l IH]; intros Hnd Hin; [contradiction |].
  inversion Hnd as [| a' l' Hnotin Hnd' Heq]; subst. simpl.
  destruct (Nat.eqb a c) eqn:E.
  - apply Nat.eqb_eq in E; subst. simpl. rewrite filter_all_true; [reflexivity |].
    intros x Hx. destruct (Nat.eqb x c) eqn:E'; [| reflexivity].
    apply Nat.eqb_eq in E'; subst; contradiction.
  - destruct Hin as [-> | Hin]; [rewrite Nat.eqb_refl in E; discriminate |].
    rewrite IH by assumption. reflexivity.
Qed.

(** [client_reader_thread]'s cleanup on a client set without duplicates
    drops exactly that connection, whether or not it was still registered,
    and closes it. *)
Theorem unregister_removes (c : chan) (h : hub) :
  NoDup (clients h) ->
  clients (unregister c h) = filter (fun x => negb (Nat.eqb x c)) (clients h) /\
  ~ In c (clients (unregister c h)) /\
  closed (unregister c h) = closed h ++ [c].
Proof.
  intros Hnd.
  assert (E : clients (unregister c h) = filter (fun x => negb (Nat.eqb x c)) (clients h)).
  { unfold unregister. simpl. destruct (existsb (Nat.eqb c) (clients h)) eqn:Ex.
    - apply existsb_exists in Ex as [x [Hx Hcx]]. apply Nat.eqb_eq in Hcx; subst x.
      rewrite list_remove_nodup by assumption. reflexivity.
    - symmetry. apply filter_all_true. intros x Hx.
      destruct (Nat.eqb x c) eqn:Exc; [| reflexivity].
      apply Nat.eqb_eq in Exc; subst x.
      assert (existsb (Nat.eqb c) (clients h) = true)
        by (apply existsb_exists; exists c; split; [exact Hx | apply Nat.eqb_refl]).
      congruence. }
  split; [exact E | split; [| reflexivity]].
  rewrite E. intros Hin. apply filter_In in Hin as [_ Hc]. rewrite Nat.eqb_refl in Hc. discriminate.
Qed.

Lemma unregister_removes_witness :
  NoDup (clients hub_one_broken) /\
  clients (unregister 2 hub_one_broken) = filter (fun x => negb (Nat.eqb x 2)) (clients hub_one_broken) /\
  ~ In 2%nat (clients (unregister 2 hub_one_broken)) /\
  closed (unregister 2 hub_one_broken) = closed hub_one_broken ++ [2%nat].
Proof.
  assert (H : NoDup (clients hub_one_broken)).
  { simpl. repeat constructor; simpl; intuition discriminate. }
  split; [exact H |]. exact (unregister_removes 2 hub_one_broken H).
Defined.

(** A client registered by [tcp_acceptor] whose transport works receives
    the next broadcast, after every client registered before it. *)
Theorem registered_client_receives (c : chan) (m : msg) (h : hub) :
  is_failing h c = false ->
  exists pre, delivered (snd (hub_broadcast m (register c h))) = delivered h ++ pre ++ [(c, m)].
Proof.
  intros Hc. rewrite hub_broadcast_spec. simpl. unfold register. simpl.
  rewrite filter_app, map_app. simpl. unfold is_failing in *. simpl. rewrite Hc. simpl.
  eexists. reflexivity.
Qed.

Lemma registered_client_receives_witness :
  is_failing hub_one_broken 4 = false /\
  exists pre, delivered (snd (hub_broadcast BackPressed (register 4 hub_one_broken))) =
              delivered hub_one_broken ++ pre ++ [(4%nat, BackPressed)].
Proof.
  assert (H : is_failing hub_one_broken 4 = false) by reflexivity.
  split; [exact H |]. exact (registered_client_receives 4 BackPressed hub_one_broken H).
Defined.

(* ------------------------------------------------------------------ *)
(** ** Sessions in the registry *)

(** The value a dict key stands for under Python's [==] and [hash]:
    [1000] and [1000.0] are the same key. *)
Definition key_val (k : pyval) : R + option string :=
  match k with
  | VNone => inr None
  | VInt z => inl (IZR z)
  | VNum r => inl r
  | VStr str => inr (Some str)
  end.


Lemma key_eqb_spec (a b : pyval) : key_eqb a b = true <-> key_val a = key_val b.
Proof.
  destruct a as [| x | x | x], b as [| y | y | y]; simpl; split; intros H;
    try discriminate H; try reflexivity.
  - apply Z.eqb_eq in H. subst. reflexivity.
  - injection H as H. apply eq_IZR in H. apply Z.eqb_eq. exact H.
  - destruct (Req_dec_T (IZR x) y); [subst; reflexivity | discriminate].
  - injection H as H. destruct (Req_dec_T (IZR x) y); [reflexivity | contradiction].
  - destruct (Req_dec_T (IZR y) x); [subst; reflexivity | discriminate].
  - injection H as H. destruct (Req_dec_T (IZR y) x); [reflexivity | congruence].
  - destruct (Req_dec_T x y); [subst; reflexivity | discriminate].
  - injection H as H. destruct (Req_dec_T x y); [reflexivity | contradiction].
  - apply String.eqb_eq in H. subst. reflexivity.
  - injection H as H. apply String.eqb_eq. exact H.
Qed.

Lemma key_eqb_compat (a b c : pyval) : key_eqb a b = true -> key_eqb a c = key_eqb b c.
Proof.
  intros Hab. apply key_eqb_spec in Hab.
  destruct (key_eqb a c) eqn:E1, (key_eqb b c) eqn:E2; try reflexivity.
  - apply key_eqb_spec in E1. assert (key_eqb b c = true) by (apply key_eqb_spec; congruence). congruence.
  - apply key_eqb_spec in E2. assert (key_eqb a c = true) by (apply key_eqb_spec; congruence). congruence.
Qed.




(* ------------------------------------------------------------------ *)
(** ** The simulated objects *)

(** [SimulatedTuioObject] sets every id alias and both position
    spellings, so [_handle_obj] reads back exactly what it was built from;
    an id of [None] makes it discarded. *)
Theorem simulated_object_read (ev : event_kind) (sym sess x y angle : pyval) :
  rr ev (SimulatedTuioObject sym sess x y angle) =
  match sym with
  | VNone => Ok None
  | _ => Ok (Some (make_record ev sym sess x y angle))
  end.
Proof. destruct sym; reflexivity. Qed.

(** [broadcast] on the client set, in general: it never raises, it drops
    exactly the clients whose [sendall] fails, every other client receives
    the message in registration order, and no socket is closed. *)
Theorem hub_broadcast_drops_failing (m : msg) (h : hub) :
  hub_broadcast m h =
  (Ok tt,
   mkHub (filter (fun c => negb (is_failing h c)) (clients h)) (failing h)
         (delivered h ++ map (fun c => (c, m)) (filter (fun c => negb (is_failing h c)) (clients h)))
         (closed h)).
Proof. exact (hub_broadcast_spec m h). Qed.

(* ------------------------------------------------------------------ *)
(** ** The simulation run *)

Lemma simulated_read (ev : event_kind) (sym sess x y angle : pyval) :
  sym <> VNone ->
  rr ev (SimulatedTuioObject sym sess x y angle) = Ok (Some (make_record ev sym sess x y angle)).
Proof. intros H. destruct sym; [contradiction | reflexivity | reflexivity | reflexivity]. Qed.

Lemma bind_step {A} (m : M St unit) (k : unit -> M St A) (s s' : St) :
  m s = (Ok tt, s') -> bind m k s = k tt s'.
Proof. intros H. unfold bind. rewrite H. reflexivity. Qed.

Lemma sim_handle (ev : event_kind) (sym sess x y angle : pyval) (s : St) :
  sym <> VNone -> numeric_record (make_record ev sym sess x y angle) = true ->
  registry_numeric (latest_objects s) ->
  exists s', handle_obj ev (SimulatedTuioObject sym sess x y angle) s = (Ok tt, s') /\
    latest_objects s' = registry_update ev (latest_objects s) (make_record ev sym sess x y angle) /\
    registry_numeric (latest_objects s').
Proof.
  intros Hsym Hn Hreg. pose proof (simulated_read ev sym sess x y angle Hsym) as E.
  exists (snd (handle_obj ev (SimulatedTuioObject sym sess x y angle) s)).
  split; [| split].
  - pose proof (handle_obj_readable_ok_core ev _ s _ E Hreg) as Hok.
    destruct (handle_obj ev _ s) as [r s']. simpl in *. subst r. reflexivity.
  - exact (handle_obj_registry_core _ _ s _ E Hn).
  - exact (handle_obj_registry_numeric_core ev _ s Hreg).
Qed.

Lemma dict_pop_set_other {V} (d : dict V) (k1 k2 : pyval) (v : V) :
  key_eqb k2 k1 = false -> dict_pop (dict_set d k2 v) k1 = dict_set (dict_pop d k1) k2 v.
Proof.
  intros Hk. induction d as [| [k0 v0] d IH]; simpl.
  - rewrite Hk. reflexivity.
  - destruct (key_eqb k0 k2) eqn:E2; destruct (key_eqb k0 k1) eqn:E1; simpl.
    + rewrite (key_eqb_compat _ _ k1 E2), Hk in E1. discriminate.
    + rewrite E1, E2. reflexivity.
    + rewrite E1. reflexivity.
    + rewrite E1, E2, IH. reflexivity.
Qed.

Lemma simulation_updates (l : list pyval) (s : St) :
  forallb is_number l = true -> registry_numeric (latest_objects s) ->
  exists s', for_each l (fun angle => update_tuio_object
               (SimulatedTuioObject (VInt ROTATE_SYMBOL) (VInt 1000) (VNum 0.5) (VNum 0.5) angle)) s
             = (Ok tt, s') /\
    dict_pop (latest_objects s') (VInt 1000) = dict_pop (latest_objects s) (VInt 1000) /\
    registry_numeric (latest_objects s').
Proof.
  revert s. induction l as [| a l IH]; intros s Hl Hreg; simpl in *.
  - exists s. auto.
  - apply andb_prop in Hl as [Ha Hl].
    destruct (sim_handle Update (VInt ROTATE_SYMBOL) (VInt 1000) (VNum 0.5) (VNum 0.5) a s)
      as (s1 & E1 & L1 & N1); [discriminate | unfold numeric_record; simpl; exact Ha | exact Hreg |].
    unfold update_tuio_object at 1. rewrite (bind_step _ _ _ _ E1).
    destruct (IH s1 Hl N1) as (s2 & E2 & L2 & N2).
    exists s2. split; [exact E2 | split; [| exact N2]].
    rewrite L2, L1. unfold registry_update. simpl. apply dict_pop_set.
Qed.

(** [_run_simulation], from any state whose registry holds formatted
    records, returns normally and leaves the registry as it found it
    except that the three sessions it used (1000, 1001, 1002) are gone. *)
Theorem run_simulation_cleans_up (s : St) :
  registry_numeric (latest_objects s) ->
  fst (run_simulation s) = Ok tt /\
  latest_objects (snd (run_simulation s)) =
  dict_pop (dict_pop (dict_pop (latest_objects s) (VInt 1000)) (VInt 1001)) (VInt 1002).
Proof.
  intros N0. unfold run_simulation, add_tuio_object, remove_tuio_object, rotate_sim. cbv zeta.
  destruct (sim_handle Add (VInt ROTATE_SYMBOL) (VInt 1000) (VNum 0.5) (VNum 0.5) (VInt 0) s)
    as (s1 & E1 & L1 & N1); [discriminate | reflexivity | exact N0 |].
  rewrite (bind_step _ _ _ _ E1).
  destruct (simulation_updates simulation_angles s1 eq_refl N1) as (s2 & E2 & L2 & N2).
  rewrite (bind_step _ _ _ _ E2).
  destruct (sim_handle Add (VInt SELECT_SYMBOL) (VInt (1000 + 1)) (VNum 0.52) (VNum 0.52) (VInt 0) s2)
    as (s3 & E3 & L3 & N3); [discriminate | reflexivity | exact N2 |].
  rewrite (bind_step _ _ _ _ E3).
  destruct (sim_handle Remove (VInt ROTATE_SYMBOL) (VInt 1000) (VNum 0.5) (VNum 0.5) (VNum 5.49) s3)
    as (s4 & E4 & L4 & N4); [discriminate | reflexivity | exact N3 |].
  rewrite (bind_step _ _ _ _ E4).
  destruct (sim_handle Remove (VInt SELECT_SYMBOL) (VInt (1000 + 1)) (VNum 0.52) (VNum 0.52) (VInt 0) s4)
    as (s5 & E5 & L5 & N5); [discriminate | reflexivity | exact N4 |].
  rewrite (bind_step _ _ _ _ E5).
  destruct (sim_handle Add (VInt 4) (VInt (1000 + 2)) (VNum 0.3) (VNum 0.3) (VInt 0) s5)
    as (s6 & E6 & L6 & N6); [discriminate | reflexivity | exact N5 |].
  rewrite (bind_step _ _ _ _ E6).
  destruct (sim_handle Remove (VInt 4) (VInt (1000 + 2)) (VNum 0.3) (VNum 0.3) (VInt 0) s6)
    as (s7 & E7 & L7 & N7); [discriminate | reflexivity | exact N6 |].
  rewrite E7. split; [reflexivity |]. cbn [snd].
  rewrite L7, L6, L5, L4, L3. unfold registry_update.
  cbn [is_add_or_update r_session_id make_record].
  rewrite dict_pop_set, dict_pop_set_other, dict_pop_set by reflexivity.
  rewrite L2, L1. unfold registry_update. cbn [is_add_or_update r_session_id make_record].
  rewrite dict_pop_set. reflexivity.
Qed.

Lemma run_simulation_cleans_up_witness :
  registry_numeric (latest_objects st_rotating) /\
  fst (run_simulation st_rotating) = Ok tt /\
  latest_objects (snd (run_simulation st_rotating)) =
  dict_pop (dict_pop (dict_pop (latest_objects st_rotating) (VInt 1000)) (VInt 1001)) (VInt 1002).
Proof.
  assert (H : registry_numeric (latest_objects st_rotating)) by reflexivity.
  split; [exact H |]. exact (run_simulation_cleans_up st_rotating H).
Defined.
